(** * guppy-runner: the command-line driver and the LLVMIR-to-object stage

    A shallow embedding of [guppy_runner/__main__.py] (argument
    post-processing, validation and [main]) and of
    [guppy_runner/compile/llvm_compiler.py] ([LlvmCompiler]).

    Python effects are modelled by a small writer/exception monad [PyM]:
    a run yields the list of observable effects (log records, spawned
    processes, stage data built from the input) and either a raised
    exception or a value.  The process environment ([os.environ]) and the
    behaviour of external programs ([subprocess.run]) are an explicit
    [World] argument. *)

From Stdlib Require Import ZArith Ascii String List Bool Sorted Lia.
From stdpp Require Import base gmap strings.
Import ListNotations.
Open Scope string_scope.
Open Scope list_scope.

(* ------------------------------------------------------------------ *)
(** ** [guppy_runner.stage]: stages and encodings *)

(** Modelled from the spec: [guppy_runner/stage.py] ([Stage]) is not part
    of the sources.  The spec (section 3) describes a closed, strictly
    totally ordered set of pipeline positions; the member names are the
    ones [__main__.py] and [llvm_compiler.py] use. *)
Inductive Stage :=
| GUPPY | HUGR | HUGR_MLIR | LOWERED_MLIR | LLVM | OBJECT | EXECUTABLE.

(** Modelled from the spec: the ordinal of each stage, in pipeline order
    (section 9: "a numeric-ordinal tagged enumeration"). *)
Definition stage_value (s : Stage) : nat :=
  match s with
  | GUPPY => 0 | HUGR => 1 | HUGR_MLIR => 2 | LOWERED_MLIR => 3
  | LLVM => 4 | OBJECT => 5 | EXECUTABLE => 6
  end.

(** [a >= b] on stages: ordinal comparison. *)
Definition stage_ge (a b : Stage) : bool := Nat.leb (stage_value b) (stage_value a).

(** [Stage.name]. *)
Definition stage_name (s : Stage) : string :=
  match s with
  | GUPPY => "GUPPY" | HUGR => "HUGR" | HUGR_MLIR => "HUGR_MLIR"
  | LOWERED_MLIR => "LOWERED_MLIR" | LLVM => "LLVM" | OBJECT => "OBJECT"
  | EXECUTABLE => "EXECUTABLE"
  end.

(** Modelled from the spec: [EncodingMode] (section 3). *)
Inductive EncodingMode := TEXTUAL | BITCODE.

Definition encoding_eqb (a b : EncodingMode) : bool :=
  match a, b with
  | TEXTUAL, TEXTUAL | BITCODE, BITCODE => true
  | _, _ => false
  end.

(* ------------------------------------------------------------------ *)
(** ** [pathlib.Path] (POSIX flavour) *)

(** A parsed path: its anchor ([""], ["/"] or ["//"]) and its parts, with
    empty and ["."] components dropped, as [PurePosixPath] parses it. *)
Record Path := mkPath { path_root : string; path_parts : list string }.

Fixpoint split_slash_aux (s : string) (cur : string) : list string :=
  match s with
  | EmptyString => [cur]
  | String c t =>
      if Ascii.eqb c "/"%char then cur :: split_slash_aux t ""
      else split_slash_aux t (cur ++ String c EmptyString)
  end.

(** [str.split("/")]. *)
Definition split_slash (s : string) : list string := split_slash_aux s "".

(** The anchor of a POSIX path: exactly two leading slashes are kept,
    one or three and more collapse to one. *)
Definition posix_root (s : string) : string :=
  match s with
  | String "/" (String "/" (String "/" _)) => "/"
  | String "/" (String "/" _) => "//"
  | String "/" _ => "/"
  | _ => ""
  end.

(** [Path(s)]. *)
Definition mk_Path (s : string) : Path :=
  mkPath (posix_root s)
    (List.filter (fun p => negb (String.eqb p "" || String.eqb p ".")) (split_slash s)).

(** [str(p)] (also [os.fspath(p)]). *)
Definition path_str (p : Path) : string :=
  match path_root p, path_parts p with
  | "", [] => "."
  | r, ps => r ++ String.concat "/" ps
  end.

(** [bool(p)]: [Path] defines neither [__bool__] nor [__len__], so every
    path object is truthy. *)
Definition path_truthy (_ : Path) : bool := true.

(** [not x] for [x : Path | None]. *)
Definition opt_path_falsy (x : option Path) : bool :=
  match x with
  | None => true
  | Some p => negb (path_truthy p)
  end.

(* ------------------------------------------------------------------ *)
(** ** Python values, [bytes] and [str] helpers *)

Definition bytes := list Byte.byte.

(** The two kinds of captured process output: [str] or [bytes]. *)
Inductive PyVal := PyStr (s : string) | PyBytes (b : bytes).

Definition byte_of_char (c : ascii) : Byte.byte := Ascii.byte_of_ascii c.

(** [splitlines] over a sequence of code units, given the set of line
    boundaries; ["\r\n"] counts as one boundary, and a trailing empty
    segment is not produced. *)
Fixpoint splitlines_aux {A} (is_sep : A -> bool) (is_cr is_lf : A -> bool)
    (s : list A) (cur : list A) : list (list A) :=
  match s with
  | [] => match cur with [] => [] | _ => [rev cur] end
  | c :: t =>
      if is_sep c then
        match t with
        | d :: t' =>
            if is_cr c && is_lf d then rev cur :: splitlines_aux is_sep is_cr is_lf t' []
            else rev cur :: splitlines_aux is_sep is_cr is_lf t []
        | [] => rev cur :: splitlines_aux is_sep is_cr is_lf t []
        end
      else splitlines_aux is_sep is_cr is_lf t (c :: cur)
  end.

(** The line boundaries of [bytes.splitlines]: [\n] and [\r]. *)
Definition is_line_break (c : Byte.byte) : bool :=
  Byte.eqb c (byte_of_char "010") || Byte.eqb c (byte_of_char "013").

(** [bytes.splitlines]. *)
Definition bytes_splitlines (b : bytes) : list bytes :=
  splitlines_aux
    is_line_break
    (fun c => Byte.eqb c (byte_of_char "013"))
    (fun c => Byte.eqb c (byte_of_char "010"))
    b [].

(** [str.splitlines] on the code points below 256: [\n], [\r], [\v],
    [\f], [\x1c], [\x1d], [\x1e] and [\x85]. *)
Definition str_splitlines (s : string) : list string :=
  map string_of_list_ascii
    (splitlines_aux
       (fun c => match nat_of_ascii c with
                 | 10 | 13 | 11 | 12 | 28 | 29 | 30 | 133 => true
                 | _ => false end)
       (fun c => Ascii.eqb c "013"%char)
       (fun c => Ascii.eqb c "010"%char)
       (list_ascii_of_string s) []).

Definition py_splitlines (v : PyVal) : list PyVal :=
  match v with
  | PyStr s => map PyStr (str_splitlines s)
  | PyBytes b => map PyBytes (bytes_splitlines b)
  end.

Definition hex_digit (n : nat) : ascii :=
  match n with
  | 0 => "0" | 1 => "1" | 2 => "2" | 3 => "3" | 4 => "4" | 5 => "5"
  | 6 => "6" | 7 => "7" | 8 => "8" | 9 => "9" | 10 => "a" | 11 => "b"
  | 12 => "c" | 13 => "d" | 14 => "e" | _ => "f"
  end%char.

(** One byte inside [repr(bytes)], given the chosen quote character. *)
Definition repr_byte (quote : nat) (c : Byte.byte) : string :=
  let n := Byte.to_nat c in
  if Nat.eqb n quote || Nat.eqb n 92 then String "\" (String (ascii_of_nat n) EmptyString)
  else if Nat.eqb n 9 then "\t"
  else if Nat.eqb n 10 then "\n"
  else if Nat.eqb n 13 then "\r"
  else if Nat.ltb n 32 || Nat.leb 127 n then
    String "\" (String "x" (String (hex_digit (n / 16)) (String (hex_digit (n mod 16)) EmptyString)))
  else String (ascii_of_nat n) EmptyString.

(** [repr(b)] for a [bytes] object: single quotes unless the value
    contains a single quote and no double quote. *)
Definition bytes_repr (b : bytes) : string :=
  let has n := existsb (fun c => Nat.eqb (Byte.to_nat c) n) b in
  let quote := if has 39 && negb (has 34) then 34 else 39 in
  let q := String (ascii_of_nat quote) EmptyString in
  "b" ++ q ++ String.concat "" (map (repr_byte quote) b) ++ q.

(** [f"{v}"], i.e. [str(v)]. *)
Definition py_format (v : PyVal) : string :=
  match v with
  | PyStr s => s
  | PyBytes b => bytes_repr b
  end.

(* ------------------------------------------------------------------ *)
(** ** Exceptions and the class hierarchy *)

(** [subprocess.CalledProcessError]: the fields the code reads. *)
Record CalledProcessError := mkCalledProcessError {
  cpe_returncode : Z;
  cpe_cmd : list string;
  cpe_stderr : PyVal
}.

Inductive Exn :=
| UnsupportedEncodingError (stage : Stage) (encoding : EncodingMode)
| LlcNotFoundError
| LlcError (perror : CalledProcessError)
| SystemExit (code : Z) (message : string)
(** raised by [StageData.from_path] for a missing input file *)
| NotFoundError (path : Path).

Inductive PyClass :=
| CBaseException | CException | CSystemExit
| CCompilerError | CUnsupportedEncodingError
| CLlvmError | CLlcNotFoundError | CLlcError | CNotFoundError.

Definition class_of (e : Exn) : PyClass :=
  match e with
  | UnsupportedEncodingError _ _ => CUnsupportedEncodingError
  | LlcNotFoundError => CLlcNotFoundError
  | LlcError _ => CLlcError
  | SystemExit _ _ => CSystemExit
  | NotFoundError _ => CNotFoundError
  end.

(** Direct base classes.  [CompilerError] and [UnsupportedEncodingError]
    live in [guppy_runner/compile/__init__.py], which is not part of the
    sources: modelled from the spec, "all such errors are subclasses of a
    common [CompilerError] family". *)
Definition class_base (c : PyClass) : option PyClass :=
  match c with
  | CBaseException => None
  | CException => Some CBaseException
  | CSystemExit => Some CBaseException
  | CCompilerError => Some CException
  | CUnsupportedEncodingError => Some CCompilerError
  | CLlvmError => Some CCompilerError
  | CLlcNotFoundError => Some CLlvmError
  | CLlcError => Some CLlvmError
  | CNotFoundError => Some CException
  end.

Definition PyClass_eqb (a b : PyClass) : bool :=
  match a, b with
  | CBaseException, CBaseException | CException, CException
  | CSystemExit, CSystemExit | CCompilerError, CCompilerError
  | CUnsupportedEncodingError, CUnsupportedEncodingError
  | CLlvmError, CLlvmError | CLlcNotFoundError, CLlcNotFoundError
  | CLlcError, CLlcError | CNotFoundError, CNotFoundError => true
  | _, _ => false
  end.

(** [issubclass(c, d)]: walk the (at most eight-long) chain of bases. *)
Fixpoint issubclass_fuel (fuel : nat) (c d : PyClass) : bool :=
  PyClass_eqb c d ||
  match fuel, class_base c with
  | S k, Some b => issubclass_fuel k b d
  | _, _ => false
  end.

Definition issubclass (c d : PyClass) : bool := issubclass_fuel 8 c d.

Definition LLC : string := "llc".
Definition LLC_ENV : string := "LLC".

(** [str(e)]: the message each exception was initialised with.  The
    text of [UnsupportedEncodingError] is built in the missing
    [compile/__init__.py]; its arguments are the stage and the encoding. *)
Definition exn_message (e : Exn) : string :=
  match e with
  | UnsupportedEncodingError s enc =>
      "UnsupportedEncodingError(" ++ stage_name s ++ ", " ++
      (match enc with TEXTUAL => "TEXTUAL" | BITCODE => "BITCODE" end) ++ ")"
  | LlcNotFoundError => "Could not find '" ++ LLC ++ "' binary in your $PATH."
  | LlcError perror =>
      let err_line :=
        match py_splitlines (cpe_stderr perror) with
        | l :: _ => l
        | [] => PyStr ""
        end in
      "An error occurred while calling '" ++ LLC ++ "':" ++ String "010" EmptyString ++
      py_format err_line
  | SystemExit _ m => m
  | NotFoundError p => path_str p
  end.

(* ------------------------------------------------------------------ *)
(** ** Effects: a writer/exception monad *)

Inductive LogArg := ArgEncoding (e : EncodingMode).

Inductive Effect :=
(** [LOGGER.info(fmt, *args)] *)
| LogInfo (fmt : string) (args : list LogArg)
(** [subprocess.run(cmd, capture_output=..., check=..., text=...)] *)
| Spawn (cmd : list string) (capture_output check text : bool)
(** [StageData.from_path(stage, path, encoding)] *)
| ReadPath (stage : Stage) (path : Path) (encoding : EncodingMode)
(** [StageData.from_stdin(stage, encoding)] *)
| ReadStdin (stage : Stage) (encoding : EncodingMode)
(** [run_guppy_from_stage(...)] *)
| RunPipeline
(** [logging.basicConfig(level=logging.INFO)] *)
| ConfigureLogging.

(** Log records are the only effects that do no work. *)
Definition is_log (ef : Effect) : bool :=
  match ef with LogInfo _ _ => true | _ => false end.

(** Spawned processes. *)
Definition is_spawn (ef : Effect) : bool :=
  match ef with Spawn _ _ _ _ => true | _ => false end.

Definition count_spawns (l : list Effect) : nat := length (List.filter is_spawn l).

Definition PyM (A : Type) : Type := (list Effect * (Exn + A))%type.

Definition ret {A} (a : A) : PyM A := ([], inr a).
Definition raise {A} (e : Exn) : PyM A := ([], inl e).
Definition tell (ef : Effect) : PyM unit := ([ef], inr tt).

Definition bind {A B} (m : PyM A) (k : A -> PyM B) : PyM B :=
  match m with
  | (w, inl e) => (w, inl e)
  | (w, inr a) => let (w', r) := k a in (w ++ w', r)
  end.

Notation "'let!' x := m 'in' k" := (bind m (fun x => k))
  (at level 200, x name, m at level 100, k at level 200).
Notation "'do!' m 'then' k" := (bind m (fun _ => k))
  (at level 200, m at level 100, k at level 200).

Definition effects {A} (m : PyM A) : list Effect := fst m.
Definition outcome {A} (m : PyM A) : Exn + A := snd m.

(* ------------------------------------------------------------------ *)
(** ** The outside world: environment and external processes *)

(** What [subprocess.run] observes of a child process: either the
    executable could not be started ([FileNotFoundError]), or it ran and
    exited with a status and an error stream (raw bytes). *)
Inductive ProcResult :=
| ExecNotFound
| Exited (returncode : Z) (stderr : bytes).

Record World := mkWorld {
  environ : gmap string string;
  run_process : list string -> ProcResult;
  file_exists : Path -> bool
}.

(** Captured output as [subprocess.run] hands it back: [bytes] unless
    [text=True], in which case it is decoded (here byte for character;
    the only call site passes [text=False]). *)
Definition captured (text : bool) (b : bytes) : PyVal :=
  if text then PyStr (string_of_list_byte b) else PyBytes b.

(** [subprocess.run(cmd, capture_output=True, check=True, text=text)]. *)
Definition subprocess_run (w : World) (cmd : list string) (text : bool) : PyM unit :=
  do! tell (Spawn cmd true true text) then
  match run_process w cmd with
  | ExecNotFound => raise LlcNotFoundError
  | Exited rc err =>
      if Z.eqb rc 0 then ret tt
      else raise (LlcError (mkCalledProcessError rc cmd (captured text err)))
  end.

(* ------------------------------------------------------------------ *)
(** ** [guppy_runner/compile/llvm_compiler.py] *)

Module LlvmCompiler.

Definition INPUT_STAGE : Stage := LLVM.
Definition OUTPUT_STAGE : Stage := OBJECT.

(** [DEFAULT_OBJ = Path("a.o")] *)
Definition DEFAULT_OBJ : Path := mk_Path "a.o".

(** [LlvmCompiler._get_compiler]: the [llc] binary and whether it was
    overridden through the environment. *)
Definition _get_compiler (w : World) : Path * bool :=
  match environ w !! LLC_ENV with
  | Some v => (mk_Path v, true)
  | None => (mk_Path LLC, false)
  end.

(** [LlvmCompiler.process_stage]. *)
Definition process_stage (w : World)
    (input_path : Path) (input_encoding : EncodingMode)
    (output_path : option Path) (output_encoding : EncodingMode)
    (temp_file : bool) (module_name : option string) : PyM Path :=
  if encoding_eqb output_encoding TEXTUAL then
    raise (UnsupportedEncodingError OUTPUT_STAGE output_encoding)
  else
    (* [if not output_path: output_path = DEFAULT_OBJ] *)
    let output_path : Path :=
      match output_path with
      | None => DEFAULT_OBJ
      | Some p => if path_truthy p then p else DEFAULT_OBJ
      end in
    let output_as_text := encoding_eqb output_encoding TEXTUAL in
    let cmd := [path_str (fst (_get_compiler w)); path_str input_path; "--filetype=obj"] in
    let cmd := if path_truthy output_path then cmd ++ ["-o"; path_str output_path] else cmd in
    let cmd_str := String.concat " " cmd in
    let msg := ("Executing command: '" ++ cmd_str ++ "'")%string in
    do! tell (LogInfo msg []) then
    do! subprocess_run w cmd output_as_text then
    ret output_path.

End LlvmCompiler.

(* ------------------------------------------------------------------ *)
(** ** [guppy_runner/__main__.py] *)

Module Main.

(** The [argparse.Namespace] built by [parser.parse_args()]. *)
Record Namespace := mkNamespace {
  verbose : bool;
  module_name : option string;
  input : option Path;
  hugr : bool;
  hugr_mlir : bool;
  llvm_mlir : bool;
  llvm : bool;
  bitcode : bool;
  textual : bool;
  store_hugr : option Path;
  store_hugr_mlir : option Path;
  store_llvm_mlir : option Path;
  store_llvm : option Path;
  store_obj : option Path;
  store_bin : option Path;
  output : option Path;
  no_run : bool
}.

(** What argparse guarantees of a namespace it returns: at most one flag
    of each mutually exclusive group ([--hugr]/[--hugr-mlir]/
    [--llvm-mlir]/[--llvm] and [--bitcode]/[--textual]) is set. *)
Definition at_most_one (bs : list bool) : bool :=
  Nat.leb (length (List.filter (fun b => b) bs)) 1.

Definition mutually_exclusive_ok (ns : Namespace) : bool :=
  at_most_one [hugr ns; hugr_mlir ns; llvm_mlir ns; llvm ns] &&
  at_most_one [bitcode ns; textual ns].

(** The namespace after [parse_args] has added [input_stage] and
    [input_encoding]. *)
Record Args := mkArgs {
  ns : Namespace;
  input_stage : Stage;
  input_encoding : EncodingMode
}.

(** [get_input_state]. *)
Definition get_input_state (args : Namespace) : Stage :=
  if hugr args then HUGR
  else if hugr_mlir args then HUGR_MLIR
  else if llvm_mlir args then LOWERED_MLIR
  else if llvm args then LLVM
  else GUPPY.

Section Driver.

(** [EncodingMode.from_file(path, stage)], from the missing
    [guppy_runner/stage.py]: a pure lookup of the file extension in a
    per-stage table, [None] when the extension is not recognised (spec
    section 4.1).  Any such table. *)
Variable from_file : Path -> Stage -> option EncodingMode.

Definition DETECT_FAILED_MSG : string :=
  "Cannot detect the encoding mode from the input file extension. Defaulting to %s.".

(** [get_input_encoding]; [input_stage] is the attribute [parse_args]
    stored on the namespace just before the call. *)
Definition get_input_encoding (args : Namespace) (input_stage : Stage) : PyM EncodingMode :=
  if textual args then ret TEXTUAL
  else if bitcode args then ret BITCODE
  else
    let input_encoding :=
      match input args with
      | Some p => from_file p input_stage
      | None => Some TEXTUAL
      end in
    match input_encoding with
    | None =>
        let input_encoding := BITCODE in
        do! tell (LogInfo DETECT_FAILED_MSG [ArgEncoding input_encoding]) then
        ret input_encoding
    | Some e => ret e
    end.

(** [parser.error(message)]: argparse prints the usage and the message
    to the error stream and exits with status 2. *)
Definition parser_error {A} (message : string) : PyM A :=
  raise (SystemExit 2 message).

(** The [store_requires] table of [validate_args] (it reads only the
    attributes argparse set). *)
Definition store_requires (args : Namespace) : list (option Path * Stage) :=
  [(store_hugr args, HUGR);
   (store_hugr_mlir args, HUGR_MLIR);
   (store_llvm_mlir args, LOWERED_MLIR);
   (store_llvm args, LLVM);
   (store_obj args, OBJECT);
   (store_bin args, EXECUTABLE)].

Definition validate_message (stage : Stage) : string :=
  "Cannot produce a " ++ stage_name stage ++ " artifact from the given input.".

(** The [for store, stage in store_requires] loop. *)
Fixpoint validate_loop (input_stage : Stage) (l : list (option Path * Stage)) : PyM unit :=
  match l with
  | [] => ret tt
  | (store, stage) :: rest =>
      match store with
      | Some _ =>
          if stage_ge input_stage stage then parser_error (validate_message stage)
          else validate_loop input_stage rest
      | None => validate_loop input_stage rest
      end
  end.

(** [validate_args]. *)
Definition validate_args (args : Args) : PyM unit :=
  validate_loop (input_stage args) (store_requires (ns args)).

(** The namespace with [--store-obj] and [--store-bin] left out. *)
Definition without_store_obj_bin (n : Namespace) : Namespace :=
  mkNamespace (verbose n) (module_name n) (input n) (hugr n) (hugr_mlir n)
    (llvm_mlir n) (llvm n) (bitcode n) (textual n) (store_hugr n)
    (store_hugr_mlir n) (store_llvm_mlir n) (store_llvm n) None None
    (output n) (no_run n).

(** [parse_args], after [parser.parse_args()] has produced [ns0]. *)
Definition parse_args (ns0 : Namespace) : PyM Args :=
  let input_stage := get_input_state ns0 in
  let! input_encoding := get_input_encoding ns0 input_stage in
  let args := mkArgs ns0 input_stage input_encoding in
  do! validate_args args then
  ret args.

End Driver.

End Main.

(* ------------------------------------------------------------------ *)
(** ** [main] *)

Module Entry.
Import Main.

(** Modelled from the spec: [StageData] ([guppy_runner/stage.py] is not
    part of the sources), section 4.2: an artifact with its stage and
    encoding, read from a file or from standard input. *)
Record StageData := mkStageData {
  sd_stage : Stage;
  sd_encoding : EncodingMode;
  sd_path : option Path
}.

(** Modelled from the spec: [StageData.from_path] fails with
    [NotFoundError] when the file is absent, else reads it whole. *)
Definition StageData_from_path (w : World) (stage : Stage) (path : Path)
    (encoding : EncodingMode) : PyM StageData :=
  if file_exists w path then
    do! tell (ReadPath stage path encoding) then
    ret (mkStageData stage encoding (Some path))
  else raise (NotFoundError path).

(** Modelled from the spec: [StageData.from_stdin] reads standard input
    to its end. *)
Definition StageData_from_stdin (stage : Stage) (encoding : EncodingMode) : PyM StageData :=
  do! tell (ReadStdin stage encoding) then
  ret (mkStageData stage encoding None).

(** The keyword arguments [main] passes to [run_guppy_from_stage]. *)
Record RunOptions := mkRunOptions {
  hugr_out : option Path;
  hugr_mlir_out : option Path;
  lowered_mlir_out : option Path;
  llvm_out : option Path;
  obj_out : option Path;
  bin_out : option Path;
  ro_no_run : bool;
  ro_module_name : option string
}.

Definition run_options (args : Args) : RunOptions :=
  mkRunOptions (store_hugr (ns args)) (store_hugr_mlir (ns args))
    (store_llvm_mlir (ns args)) (store_llvm (ns args))
    (store_obj (ns args)) (store_bin (ns args))
    (no_run (ns args)) (module_name (ns args)).

Section MainFn.

Variable from_file : Path -> Stage -> option EncodingMode.

(** [run_guppy_from_stage] (in the missing [guppy_runner/__init__.py]):
    the pipeline run, reduced to the success flag it returns. *)
Variable run_guppy_from_stage : StageData -> RunOptions -> bool.

(** The [if args.input: ... else: ...] block of [main]. *)
Definition load_stage_data (w : World) (args : Args) : PyM StageData :=
  match input (ns args) with
  | Some p =>
      if path_truthy p then StageData_from_path w (input_stage args) p (input_encoding args)
      else StageData_from_stdin (input_stage args) (input_encoding args)
  | None => StageData_from_stdin (input_stage args) (input_encoding args)
  end.

(** [main]. *)
Definition main (w : World) (ns0 : Namespace) : PyM unit :=
  let! args := parse_args from_file ns0 in
  do! (if verbose (ns args) then tell ConfigureLogging else ret tt) then
  let! stage_data := load_stage_data w args in
  do! tell RunPipeline then
  let success := run_guppy_from_stage stage_data (run_options args) in
  if negb success then raise (SystemExit 1 "") else ret tt.

End MainFn.

(** The status the interpreter exits with: [0] when [main] returns,
    the [SystemExit] code when one escapes, [1] for any other uncaught
    exception. *)
Definition exit_code {A} (r : Exn + A) : Z :=
  match r with
  | inr _ => 0
  | inl (SystemExit c _) => c
  | inl _ => 1
  end.

End Entry.

(* ------------------------------------------------------------------ *)
(** ** Concrete inputs *)

Module Inputs.
Import Main Entry.

Definition newline : Byte.byte := byte_of_char "010".

(** No [LLC] variable, every file present, [llc] succeeds. *)
Definition w_ok : World := mkWorld ∅ (fun _ => Exited 0 []) (fun _ => true).

(** [llc] runs and fails with [error: bad] on its error stream. *)
Definition w_llc_fails : World :=
  mkWorld ∅ (fun _ => Exited 1 (list_byte_of_string "error: bad" ++ [newline])) (fun _ => true).

(** [LLC=/opt/llvm/bin/llc-17], a binary that does not exist. *)
Definition w_llc_override_missing : World :=
  mkWorld (<["LLC" := "/opt/llvm/bin/llc-17"]> ∅) (fun _ => ExecNotFound) (fun _ => true).

(** A namespace with no option set but the input file. *)
Definition ns_plain (inp : option Path) : Namespace :=
  mkNamespace false None inp false false false false false false
    None None None None None None None false.

(** [guppy-runner --llvm prog.ll --store-hugr h.json]. *)
Definition ns_llvm_store_hugr : Namespace :=
  mkNamespace false None (Some (mk_Path "prog.ll")) false false false true false false
    (Some (mk_Path "h.json")) None None None None None None false.

(** [--llvm] with [--store-hugr-mlir] and [--store-llvm]. *)
Definition ns_llvm_two_stores : Namespace :=
  mkNamespace false None (Some (mk_Path "prog.ll")) false false false true false false
    None (Some (mk_Path "m.mlir")) None (Some (mk_Path "p.ll")) None None None false.

(** An extension table that recognises nothing. *)
Definition no_ext : Path -> Stage -> option EncodingMode := fun _ _ => None.

End Inputs.

(* ================================================================== *)
(** * Properties *)

Module LlvmCompilerFacts.
Import LlvmCompiler Inputs.

(** Unfold one [process_stage] run down to the [subprocess.run] result. *)
Ltac run_process_stage :=
  unfold process_stage, subprocess_run, bind, tell, ret, raise; simpl;
  repeat match goal with
  | |- context [run_process ?w ?c] => destruct (run_process w c) eqn:?
  | |- context [Z.eqb ?a ?b] => destruct (Z.eqb a b) eqn:?
  end; simpl.

(** C1: whatever the other arguments and the world, asking
    [process_stage] for TEXTUAL output raises [UnsupportedEncodingError]
    with the OBJECT stage and the TEXTUAL encoding, and produces no effect
    at all: no log record and no spawned process. *)
Theorem process_stage_textual_rejected :
  forall (w : World) (input_path : Path) (input_encoding : EncodingMode)
         (output_path : option Path) (temp_file : bool) (module_name : option string),
  process_stage w input_path input_encoding output_path TEXTUAL temp_file module_name
  = ([], inl (UnsupportedEncodingError OBJECT TEXTUAL)).
Proof. intros. reflexivity. Qed.

(** C9: [process_stage] ignores [input_encoding], [temp_file] and
    [module_name]: two calls differing only in them have the same
    effects (log records, spawned command) and the same outcome. *)
Theorem process_stage_ignores_encoding_tempfile_module :
  forall (w : World) (input_path : Path) (ie1 ie2 : EncodingMode)
         (output_path : option Path) (output_encoding : EncodingMode)
         (tf1 tf2 : bool) (mn1 mn2 : option string),
  process_stage w input_path ie1 output_path output_encoding tf1 mn1
  = process_stage w input_path ie2 output_path output_encoding tf2 mn2.
Proof. intros. reflexivity. Qed.

(** The command line [process_stage] builds for BITCODE output. *)
Definition llc_cmd (w : World) (input_path : Path) (output_path : option Path) : list string :=
  let out := match output_path with Some p => p | None => DEFAULT_OBJ end in
  [path_str (fst (_get_compiler w)); path_str input_path; "--filetype=obj"; "-o"; path_str out].

(** For BITCODE output [process_stage] logs the command, spawns exactly
    that one process (capturing its output, checking its status, in
    binary mode) and then returns or raises according to the process. *)
Lemma process_stage_bitcode_effects :
  forall (w : World) (input_path : Path) (input_encoding : EncodingMode)
         (output_path : option Path) (temp_file : bool) (module_name : option string),
  effects (process_stage w input_path input_encoding output_path BITCODE temp_file module_name)
  = [LogInfo ("Executing command: '" ++ String.concat " " (llc_cmd w input_path output_path) ++ "'") [];
     Spawn (llc_cmd w input_path output_path) true true false].
Proof.
  intros. unfold llc_cmd. destruct output_path as [p|]; run_process_stage; reflexivity.
Qed.

(** C6: [_get_compiler] returns [Path(os.environ["LLC"])] with the flag
    set whenever [LLC] is in the environment, and [Path("llc")] with the
    flag clear otherwise; it depends on nothing but that variable. *)
Theorem get_compiler_resolution (w : World) :
  (forall v, environ w !! "LLC" = Some v -> _get_compiler w = (mk_Path v, true)) /\
  (environ w !! "LLC" = None -> _get_compiler w = (mk_Path "llc", false)) /\
  (forall w' : World, environ w' !! "LLC" = environ w !! "LLC" ->
     _get_compiler w' = _get_compiler w) /\
  (forall v input_path input_encoding output_path temp_file module_name,
     environ w !! "LLC" = Some v ->
     exists rest, In (Spawn (path_str (mk_Path v) :: rest) true true false)
       (effects (process_stage w input_path input_encoding output_path BITCODE
                   temp_file module_name))).
Proof.
  assert (Hv : forall v, environ w !! "LLC" = Some v -> _get_compiler w = (mk_Path v, true)).
  { unfold _get_compiler, LLC_ENV. intros v ->. reflexivity. }
  repeat split.
  - exact Hv.
  - unfold _get_compiler, LLC_ENV, LLC. intros ->. reflexivity.
  - unfold _get_compiler, LLC_ENV. intros w' ->. reflexivity.
  - intros v ip ie op tf mn Henv. rewrite process_stage_bitcode_effects.
    unfold llc_cmd. rewrite (Hv v Henv). simpl. eexists. right. left. reflexivity.
Qed.

(** The [\n] character as a one-character string. *)
Definition nl : string := String "010" EmptyString.

(** Non-zero exit of [llc]: [process_stage] raises [LlcError] whose
    captured error stream is [bytes] (the call passes [text=False]), so
    its message ends with [repr] of the first [bytes] line, or with the
    empty [str] default when there is no line. *)
Lemma process_stage_nonzero_exit :
  forall (w : World) (input_path : Path) (input_encoding : EncodingMode)
         (output_path : option Path) (temp_file : bool) (module_name : option string)
         (rc : Z) (err : bytes),
  run_process w (llc_cmd w input_path output_path) = Exited rc err -> rc <> 0%Z ->
  exists perror,
    outcome (process_stage w input_path input_encoding output_path BITCODE temp_file module_name)
      = inl (LlcError perror) /\
    cpe_stderr perror = PyBytes err /\
    exn_message (LlcError perror) =
      ("An error occurred while calling 'llc':" ++ nl ++
      match bytes_splitlines err with
      | l :: _ => bytes_repr l
      | [] => ""
      end)%string.
Proof.
  intros w ip ie op tf mn rc err Hrun Hrc.
  unfold llc_cmd in Hrun.
  assert (Hz : Z.eqb rc 0 = false) by (apply Z.eqb_neq; exact Hrc).
  destruct op as [q|]; unfold process_stage, subprocess_run, bind, tell, ret, raise; simpl;
    simpl in Hrun; rewrite Hrun, Hz; simpl;
    eexists; (split; [reflexivity|]); split; try reflexivity;
    unfold exn_message; simpl;
    destruct (bytes_splitlines err); reflexivity.
Qed.

(** C4 (defect): with [llc] failing with the error stream
    ["error: bad\n"], the [LlcError] raised (a [CompilerError]) carries
    [b'error: bad'], the Python [repr] of the first line as [bytes], and
    not the line [error: bad] itself. *)
Theorem llc_error_message_shows_bytes_repr :
  exists e,
    process_stage w_llc_fails (mk_Path "in.ll") BITCODE None BITCODE false None
    = ([LogInfo "Executing command: 'llc in.ll --filetype=obj -o a.o'" [];
        Spawn ["llc"; "in.ll"; "--filetype=obj"; "-o"; "a.o"] true true false],
       inl e) /\
    class_of e = CLlcError /\
    issubclass (class_of e) CCompilerError = true /\
    exn_message e = ("An error occurred while calling 'llc':" ++ nl ++ "b'error: bad'")%string /\
    exn_message e <> ("An error occurred while calling 'llc':" ++ nl ++ "error: bad")%string.
Proof.
  eexists. split; [reflexivity|]. split; [reflexivity|]. split; [reflexivity|].
  split; [vm_compute; reflexivity|]. vm_compute. discriminate.
Qed.

(** When the [llc] binary cannot be started, the [LlcNotFoundError]
    message is the same constant whatever the environment says. *)
Lemma process_stage_exec_not_found :
  forall (w : World) (input_path : Path) (input_encoding : EncodingMode)
         (output_path : option Path) (temp_file : bool) (module_name : option string),
  run_process w (llc_cmd w input_path output_path) = ExecNotFound ->
  outcome (process_stage w input_path input_encoding output_path BITCODE temp_file module_name)
    = inl LlcNotFoundError /\
  exn_message LlcNotFoundError = "Could not find 'llc' binary in your $PATH.".
Proof.
  intros w ip ie op tf mn Hrun. unfold llc_cmd in Hrun.
  destruct op as [q|]; unfold process_stage, subprocess_run, bind, tell, ret, raise; simpl;
    simpl in Hrun; rewrite Hrun; split; reflexivity.
Qed.

(** C5 (defect): with [LLC=/opt/llvm/bin/llc-17] pointing at a missing
    binary, [process_stage] tries to spawn [/opt/llvm/bin/llc-17] and
    raises [LlcNotFoundError], whose message names [llc] and [$PATH]
    and does not contain the binary that was expected. *)
Theorem llc_not_found_ignores_override :
  process_stage w_llc_override_missing (mk_Path "in.ll") BITCODE None BITCODE false None
  = ([LogInfo "Executing command: '/opt/llvm/bin/llc-17 in.ll --filetype=obj -o a.o'" [];
      Spawn ["/opt/llvm/bin/llc-17"; "in.ll"; "--filetype=obj"; "-o"; "a.o"] true true false],
     inl LlcNotFoundError) /\
  snd (_get_compiler w_llc_override_missing) = true /\
  exn_message LlcNotFoundError = "Could not find 'llc' binary in your $PATH." /\
  String.index 0 "/opt/llvm/bin/llc-17" (exn_message LlcNotFoundError) = None /\
  String.index 0 "llc-17" (exn_message LlcNotFoundError) = None.
Proof. vm_compute. repeat split. Qed.

(** C7: a successful [process_stage] returns the [output_path] it was
    given, or [DEFAULT_OBJ] when that is [None] (no [Path] is falsy, so
    [not output_path] holds exactly for [None]); [DEFAULT_OBJ] is the
    fixed relative path [a.o], the same for every call. *)
Theorem process_stage_returns_output_path :
  forall (w : World) (input_path : Path) (input_encoding : EncodingMode)
         (output_path : option Path) (output_encoding : EncodingMode)
         (temp_file : bool) (module_name : option string) (p : Path),
  outcome (process_stage w input_path input_encoding output_path output_encoding
             temp_file module_name) = inr p ->
  p = match output_path with Some q => q | None => DEFAULT_OBJ end /\
  (opt_path_falsy output_path = true -> p = DEFAULT_OBJ) /\
  path_root DEFAULT_OBJ = "" /\ path_parts DEFAULT_OBJ = ["a.o"] /\
  path_str DEFAULT_OBJ = "a.o".
Proof.
  intros w ip ie op oe tf mn p H.
  destruct oe; [discriminate H|].
  assert (Hp : p = match op with Some q => q | None => DEFAULT_OBJ end).
  { destruct op as [q|]; revert H; run_process_stage; intros H; inversion H; reflexivity. }
  split; [exact Hp|]. split.
  - destruct op; [discriminate|]. intros _. exact Hp.
  - repeat split.
Qed.

Lemma process_stage_returns_output_path_witness :
  outcome (process_stage w_ok (mk_Path "in.ll") BITCODE None BITCODE false None) = inr DEFAULT_OBJ /\
  DEFAULT_OBJ = DEFAULT_OBJ /\ (opt_path_falsy None = true -> DEFAULT_OBJ = DEFAULT_OBJ) /\
  path_root DEFAULT_OBJ = "" /\ path_parts DEFAULT_OBJ = ["a.o"] /\
  path_str DEFAULT_OBJ = "a.o".
Proof.
  assert (H : outcome (process_stage w_ok (mk_Path "in.ll") BITCODE None BITCODE false None)
              = inr DEFAULT_OBJ) by reflexivity.
  split; [exact H|].
  exact (process_stage_returns_output_path w_ok (mk_Path "in.ll") BITCODE None BITCODE
           false None DEFAULT_OBJ H).
Defined.

End LlvmCompilerFacts.

Module MonadFacts.

Lemma bind_inl {A B} (m : PyM A) (k : A -> PyM B) (e : Exn) :
  outcome m = inl e -> bind m k = (effects m, inl e).
Proof. destruct m as [w [e'|a]]; simpl; intros H; [now inversion H | discriminate]. Qed.

Lemma bind_inr {A B} (m : PyM A) (k : A -> PyM B) (a : A) :
  outcome m = inr a -> bind m k = (effects m ++ effects (k a), outcome (k a)).
Proof.
  destruct m as [w [e|a']]; simpl; intros H; [discriminate|].
  inversion H; subst. destruct (k a); reflexivity.
Qed.

Lemma outcome_bind_inr {A B} (m : PyM A) (k : A -> PyM B) (a : A) :
  outcome m = inr a -> outcome (bind m k) = outcome (k a).
Proof. intros H. rewrite (bind_inr m k a H). reflexivity. Qed.

End MonadFacts.

Module MainFacts.
Import Main Entry Inputs MonadFacts.

(** [get_input_encoding] raises nothing and logs at most. *)
Lemma get_input_encoding_total_logs :
  forall (from_file : Path -> Stage -> option EncodingMode) (n : Namespace) (st : Stage),
  (exists e, outcome (get_input_encoding from_file n st) = inr e) /\
  Forall (fun ef => is_log ef = true) (effects (get_input_encoding from_file n st)).
Proof.
  intros. unfold get_input_encoding.
  destruct (textual n); [split; [eexists; reflexivity | constructor]|].
  destruct (bitcode n); [split; [eexists; reflexivity | constructor]|].
  destruct (input n) as [p|]; [destruct (from_file p st)|]; simpl;
    (split; [eexists; reflexivity | repeat constructor]).
Qed.

(** C2: with argparse's mutual exclusion, [get_input_encoding] never
    raises; [--textual] gives TEXTUAL and [--bitcode] gives BITCODE
    whatever the input and stage; otherwise a file whose extension
    [from_file] does not recognise gives BITCODE with one informational
    log record, and standard input gives TEXTUAL. *)
Theorem get_input_encoding_resolution :
  forall (from_file : Path -> Stage -> option EncodingMode) (n : Namespace) (st : Stage),
  mutually_exclusive_ok n = true ->
  (exists e, outcome (get_input_encoding from_file n st) = inr e) /\
  (textual n = true -> get_input_encoding from_file n st = ([], inr TEXTUAL)) /\
  (bitcode n = true -> get_input_encoding from_file n st = ([], inr BITCODE)) /\
  (textual n = false -> bitcode n = false ->
     forall p, input n = Some p -> from_file p st = None ->
     get_input_encoding from_file n st
     = ([LogInfo DETECT_FAILED_MSG [ArgEncoding BITCODE]], inr BITCODE)) /\
  (textual n = false -> bitcode n = false -> input n = None ->
     get_input_encoding from_file n st = ([], inr TEXTUAL)).
Proof.
  intros from_file n st Hex.
  split; [apply get_input_encoding_total_logs|].
  unfold get_input_encoding. repeat split.
  - intros ->. reflexivity.
  - intros Hb. rewrite Hb.
    destruct (textual n) eqn:Ht; [|reflexivity].
    unfold mutually_exclusive_ok, at_most_one in Hex. rewrite Hb, Ht in Hex.
    apply andb_prop in Hex as [_ Hex]. discriminate Hex.
  - intros -> -> p -> ->. reflexivity.
  - intros -> -> ->. reflexivity.
Qed.

Lemma get_input_encoding_resolution_witness :
  mutually_exclusive_ok (ns_plain (Some (mk_Path "x.zz"))) = true /\
  get_input_encoding no_ext (ns_plain (Some (mk_Path "x.zz"))) GUPPY
    = ([LogInfo DETECT_FAILED_MSG [ArgEncoding BITCODE]], inr BITCODE).
Proof.
  assert (Hex : mutually_exclusive_ok (ns_plain (Some (mk_Path "x.zz"))) = true) by reflexivity.
  split; [exact Hex|].
  destruct (get_input_encoding_resolution no_ext _ GUPPY Hex) as (_ & _ & _ & H & _).
  exact (H eq_refl eq_refl (mk_Path "x.zz") eq_refl eq_refl).
Defined.

(** The validation loop stops at the first requested artifact at or
    before the input stage. *)
Lemma validate_loop_rejects :
  forall (st : Stage) (l : list (option Path * Stage)),
  (exists store stage, In (store, stage) l /\ store <> None /\ stage_ge st stage = true) ->
  exists stage,
    (exists store, In (store, stage) l /\ store <> None) /\
    stage_ge st stage = true /\
    validate_loop st l = ([], inl (SystemExit 2 (validate_message stage))).
Proof.
  intros st l. induction l as [|[store stage] rest IH]; intros Hoff.
  - destruct Hoff as (? & ? & [] & _).
  - simpl. destruct store as [p|] eqn:Hs.
    + destruct (stage_ge st stage) eqn:Hge.
      * exists stage. split; [exists (Some p); split; [left; reflexivity | discriminate]|].
        split; [exact Hge | reflexivity].
      * destruct IH as (stage' & (store' & Hin & Hne) & Hge' & Hrun).
        { destruct Hoff as (s0 & g0 & [Heq|Hin] & Hne & Hge0).
          - inversion Heq; subst. congruence.
          - exists s0, g0. auto. }
        exists stage'. split; [exists store'; split; [right; exact Hin | exact Hne]|].
        split; [exact Hge' | exact Hrun].
    + destruct IH as (stage' & (store' & Hin & Hne) & Hge' & Hrun).
      { destruct Hoff as (s0 & g0 & [Heq|Hin] & Hne & Hge0).
        - inversion Heq; subst. congruence.
        - exists s0, g0. auto. }
      exists stage'. split; [exists store'; split; [right; exact Hin | exact Hne]|].
      split; [exact Hge' | exact Hrun].
Qed.

(** With no offending entry the loop passes without any effect. *)
Lemma validate_loop_accepts :
  forall (st : Stage) (l : list (option Path * Stage)),
  (forall store stage, In (store, stage) l -> store <> None -> stage_ge st stage = false) ->
  validate_loop st l = ([], inr tt).
Proof.
  intros st l. induction l as [|[store stage] rest IH]; intros Hok; [reflexivity|].
  simpl. rewrite IH by (intros s g Hin; apply Hok; right; exact Hin).
  destruct store as [p|]; [|reflexivity].
  rewrite (Hok (Some p) stage (or_introl eq_refl)) by discriminate. reflexivity.
Qed.

(** C3: if some [--store-*] option names a stage at or before the
    resolved input stage, [main] exits with status 2 through
    [parser.error], with the message naming such a stage, having done
    nothing but log (no stage data read, no pipeline run, no process
    spawned); if no option does, [validate_args] passes without any
    effect. *)
Theorem validate_args_rejects_before_work :
  forall (from_file : Path -> Stage -> option EncodingMode)
         (run_guppy_from_stage : StageData -> RunOptions -> bool)
         (w : World) (n : Namespace),
  ((exists store stage, In (store, stage) (store_requires n) /\ store <> None /\
                        stage_ge (get_input_state n) stage = true) ->
   exists stage,
     (exists store, In (store, stage) (store_requires n) /\ store <> None) /\
     stage_ge (get_input_state n) stage = true /\
     outcome (main from_file run_guppy_from_stage w n)
       = inl (SystemExit 2 ("Cannot produce a " ++ stage_name stage ++
                            " artifact from the given input.")) /\
     exit_code (outcome (main from_file run_guppy_from_stage w n)) = 2%Z /\
     Forall (fun ef => is_log ef = true) (effects (main from_file run_guppy_from_stage w n))) /\
  (forall args : Args,
   (forall store stage, In (store, stage) (store_requires (ns args)) -> store <> None ->
                        stage_ge (input_stage args) stage = false) ->
   validate_args args = ([], inr tt)).
Proof.
  intros from_file run w n. split.
  - intros Hoff.
    destruct (validate_loop_rejects (get_input_state n) (store_requires n) Hoff)
      as (stage & Hst & Hge & Hval).
    destruct (get_input_encoding_total_logs from_file n (get_input_state n)) as ((enc & Henc) & Hlogs).
    assert (Hparse : parse_args from_file n
                     = (effects (get_input_encoding from_file n (get_input_state n)) ++ [],
                        inl (SystemExit 2 (validate_message stage)))).
    { unfold parse_args. rewrite (bind_inr _ _ enc Henc).
      change (validate_args (mkArgs n (get_input_state n) enc))
        with (validate_loop (get_input_state n) (store_requires n)).
      rewrite Hval. reflexivity. }
    assert (Hmain : main from_file run w n
                    = (effects (parse_args from_file n), inl (SystemExit 2 (validate_message stage)))).
    { unfold main. apply bind_inl. rewrite Hparse. reflexivity. }
    exists stage. rewrite Hmain, Hparse. simpl. rewrite app_nil_r.
    split; [exact Hst|]. split; [exact Hge|]. repeat split. exact Hlogs.
  - intros args Hok. apply validate_loop_accepts. exact Hok.
Qed.

Lemma validate_args_rejects_before_work_witness :
  (exists store stage, In (store, stage) (store_requires ns_llvm_store_hugr) /\ store <> None /\
                       stage_ge (get_input_state ns_llvm_store_hugr) stage = true) /\
  exists stage,
     (exists store, In (store, stage) (store_requires ns_llvm_store_hugr) /\ store <> None) /\
     stage_ge (get_input_state ns_llvm_store_hugr) stage = true /\
     outcome (main no_ext (fun _ _ => true) w_ok ns_llvm_store_hugr)
       = inl (SystemExit 2 ("Cannot produce a " ++ stage_name stage ++
                            " artifact from the given input.")) /\
     exit_code (outcome (main no_ext (fun _ _ => true) w_ok ns_llvm_store_hugr)) = 2%Z /\
     Forall (fun ef => is_log ef = true) (effects (main no_ext (fun _ _ => true) w_ok ns_llvm_store_hugr)).
Proof.
  assert (Hoff : exists store stage, In (store, stage) (store_requires ns_llvm_store_hugr) /\
                   store <> None /\ stage_ge (get_input_state ns_llvm_store_hugr) stage = true).
  { exists (Some (mk_Path "h.json")), HUGR. split; [left; reflexivity|].
    split; [discriminate | reflexivity]. }
  split; [exact Hoff|].
  exact (proj1 (validate_args_rejects_before_work no_ext (fun _ _ => true) w_ok
                  ns_llvm_store_hugr) Hoff).
Defined.

(** C8: once the command line is accepted and the input is read,
    the process exits with status 0 when [run_guppy_from_stage] reports
    success and with status 1 when it reports failure. *)
Theorem main_exit_code :
  forall (from_file : Path -> Stage -> option EncodingMode)
         (run_guppy_from_stage : StageData -> RunOptions -> bool)
         (w : World) (n : Namespace) (args : Args) (sd : StageData),
  outcome (parse_args from_file n) = inr args ->
  outcome (load_stage_data w args) = inr sd ->
  exit_code (outcome (main from_file run_guppy_from_stage w n))
  = if run_guppy_from_stage sd (run_options args) then 0%Z else 1%Z.
Proof.
  intros from_file run w n args sd Hp Hl.
  unfold main. rewrite (outcome_bind_inr _ _ args Hp).
  rewrite (outcome_bind_inr _ _ tt) by (destruct (verbose (ns args)); reflexivity).
  rewrite (outcome_bind_inr _ _ sd Hl).
  rewrite (outcome_bind_inr _ _ tt) by reflexivity.
  destruct (run sd (run_options args)); reflexivity.
Qed.

Lemma main_exit_code_witness :
  outcome (parse_args no_ext (ns_plain (Some (mk_Path "x.zz"))))
    = inr (mkArgs (ns_plain (Some (mk_Path "x.zz"))) GUPPY BITCODE) /\
  outcome (load_stage_data w_ok (mkArgs (ns_plain (Some (mk_Path "x.zz"))) GUPPY BITCODE))
    = inr (mkStageData GUPPY BITCODE (Some (mk_Path "x.zz"))) /\
  exit_code (outcome (main no_ext (fun _ _ => false) w_ok (ns_plain (Some (mk_Path "x.zz")))))
    = 1%Z.
Proof.
  assert (Hp : outcome (parse_args no_ext (ns_plain (Some (mk_Path "x.zz"))))
               = inr (mkArgs (ns_plain (Some (mk_Path "x.zz"))) GUPPY BITCODE)) by reflexivity.
  assert (Hl : outcome (load_stage_data w_ok (mkArgs (ns_plain (Some (mk_Path "x.zz"))) GUPPY BITCODE))
               = inr (mkStageData GUPPY BITCODE (Some (mk_Path "x.zz")))) by reflexivity.
  split; [exact Hp|]. split; [exact Hl|].
  exact (main_exit_code no_ext (fun _ _ => false) w_ok _ _ _ Hp Hl).
Defined.

(** The two last entries of [store_requires] are OBJECT and EXECUTABLE. *)
Lemma validate_loop_obj_bin_inert :
  forall (st : Stage) (l : list (option Path * Stage)) (o b : option Path),
  stage_ge st OBJECT = false -> stage_ge st EXECUTABLE = false ->
  validate_loop st (l ++ [(o, OBJECT); (b, EXECUTABLE)])
  = validate_loop st (l ++ [(None, OBJECT); (None, EXECUTABLE)]).
Proof.
  intros st l o b Ho Hb. induction l as [|[store stage] rest IH].
  - simpl. rewrite Ho, Hb. destruct o, b; reflexivity.
  - simpl. rewrite IH. reflexivity.
Qed.

(** C10: the input stage is one of GUPPY, HUGR, HUGR_MLIR, LOWERED_MLIR
    and LLVM, GUPPY when no stage flag is set; so it is before OBJECT and
    EXECUTABLE, and [--store-obj] and [--store-bin] never change what
    [validate_args] does. *)
Theorem input_stage_before_object :
  forall n : Namespace,
  In (get_input_state n) [GUPPY; HUGR; HUGR_MLIR; LOWERED_MLIR; LLVM] /\
  stage_ge (get_input_state n) OBJECT = false /\
  stage_ge (get_input_state n) EXECUTABLE = false /\
  (hugr n = false -> hugr_mlir n = false -> llvm_mlir n = false -> llvm n = false ->
   get_input_state n = GUPPY) /\
  (forall enc : EncodingMode,
   validate_args (mkArgs n (get_input_state n) enc)
   = validate_args (mkArgs (without_store_obj_bin n) (get_input_state n) enc)).
Proof.
  intros n.
  assert (Hin : In (get_input_state n) [GUPPY; HUGR; HUGR_MLIR; LOWERED_MLIR; LLVM]).
  { unfold get_input_state.
    destruct (hugr n), (hugr_mlir n), (llvm_mlir n), (llvm n); simpl; tauto. }
  assert (Ho : stage_ge (get_input_state n) OBJECT = false /\
               stage_ge (get_input_state n) EXECUTABLE = false).
  { simpl in Hin. destruct Hin as [H|[H|[H|[H|[H|[]]]]]]; rewrite <- H; split; reflexivity. }
  destruct Ho as [Ho Hb].
  split; [exact Hin|]. split; [exact Ho|]. split; [exact Hb|]. split.
  - intros H1 H2 H3 H4. unfold get_input_state. rewrite H1, H2, H3, H4. reflexivity.
  - intros enc. unfold validate_args. simpl.
    exact (validate_loop_obj_bin_inert (get_input_state n)
             [(store_hugr n, HUGR); (store_hugr_mlir n, HUGR_MLIR);
              (store_llvm_mlir n, LOWERED_MLIR); (store_llvm n, LLVM)]
             (store_obj n) (store_bin n) Ho Hb).
Qed.

End MainFacts.

Module LlvmCompilerExtra.
Import LlvmCompiler LlvmCompilerFacts Inputs.

(** [process_stage] starts no process when asked for TEXTUAL output and
    exactly one otherwise, always capturing its output, checking its
    status and reading it as binary. *)
Theorem process_stage_spawn_count :
  forall (w : World) (input_path : Path) (input_encoding : EncodingMode)
         (output_path : option Path) (output_encoding : EncodingMode)
         (temp_file : bool) (module_name : option string),
  count_spawns (effects (process_stage w input_path input_encoding output_path
                           output_encoding temp_file module_name))
    = match output_encoding with TEXTUAL => 0 | BITCODE => 1 end /\
  (forall cmd co ch tx,
     In (Spawn cmd co ch tx) (effects (process_stage w input_path input_encoding output_path
                                         output_encoding temp_file module_name)) ->
     co = true /\ ch = true /\ tx = false).
Proof.
  intros. destruct output_encoding.
  - split; [reflexivity|]. intros cmd co ch tx [].
  - rewrite process_stage_bitcode_effects. split; [reflexivity|].
    intros cmd co ch tx [H|[H|[]]]; [discriminate|]. inversion H; auto.
Qed.

(** For BITCODE output the call succeeds exactly when [llc] exits with
    status 0; a binary that cannot be started gives [LlcNotFoundError];
    a non-zero status gives [LlcError] carrying that status, the command
    and the error stream as [bytes]; both errors are [LlvmError]s. *)
Theorem process_stage_outcome_classification :
  forall (w : World) (input_path : Path) (input_encoding : EncodingMode)
         (output_path : option Path) (temp_file : bool) (module_name : option string),
  outcome (process_stage w input_path input_encoding output_path BITCODE temp_file module_name)
  = match run_process w (llc_cmd w input_path output_path) with
    | ExecNotFound => inl LlcNotFoundError
    | Exited rc err =>
        if Z.eqb rc 0
        then inr (match output_path with Some q => q | None => DEFAULT_OBJ end)
        else inl (LlcError (mkCalledProcessError rc (llc_cmd w input_path output_path)
                                                 (PyBytes err)))
    end /\
  (forall e, outcome (process_stage w input_path input_encoding output_path BITCODE
                        temp_file module_name) = inl e ->
   issubclass (class_of e) CLlvmError = true).
Proof.
  intros w ip ie op tf mn.
  assert (H : outcome (process_stage w ip ie op BITCODE tf mn)
   = match run_process w (llc_cmd w ip op) with
     | ExecNotFound => inl LlcNotFoundError
     | Exited rc err =>
         if Z.eqb rc 0 then inr (match op with Some q => q | None => DEFAULT_OBJ end)
         else inl (LlcError (mkCalledProcessError rc (llc_cmd w ip op) (PyBytes err)))
     end).
  { unfold llc_cmd. destruct op as [q|];
      unfold process_stage, subprocess_run, bind, tell, ret, raise; simpl;
      destruct (run_process _ _) as [|rc err]; simpl; try reflexivity;
      destruct (Z.eqb rc 0); reflexivity. }
  split; [exact H|]. intros e He. rewrite H in He.
  destruct (run_process w (llc_cmd w ip op)) as [|rc err].
  - inversion He; reflexivity.
  - destruct (Z.eqb rc 0); inversion He; reflexivity.
Qed.

(** A successful call returns the path it passed to [llc] after [-o],
    and [llc] exited with status 0 on the command it was given. *)
Theorem process_stage_returns_o_argument :
  forall (w : World) (input_path : Path) (input_encoding : EncodingMode)
         (output_path : option Path) (temp_file : bool) (module_name : option string)
         (p : Path),
  outcome (process_stage w input_path input_encoding output_path BITCODE temp_file module_name)
    = inr p ->
  let cmd := [path_str (fst (_get_compiler w)); path_str input_path; "--filetype=obj";
              "-o"; path_str p] in
  In (Spawn cmd true true false)
     (effects (process_stage w input_path input_encoding output_path BITCODE temp_file module_name)) /\
  exists err, run_process w cmd = Exited 0 err.
Proof.
  intros w ip ie op tf mn p H cmd.
  destruct (process_stage_outcome_classification w ip ie op tf mn) as [Hc _].
  rewrite H in Hc.
  destruct (run_process w (llc_cmd w ip op)) as [|rc err] eqn:Hrun; [discriminate|].
  destruct (Z.eqb rc 0) eqn:Hz; [|discriminate].
  inversion Hc as [Hp]. apply Z.eqb_eq in Hz. subst rc.
  assert (Hcmd : cmd = llc_cmd w ip op) by (unfold cmd, llc_cmd; rewrite <- Hp; reflexivity).
  rewrite Hcmd, process_stage_bitcode_effects. split.
  - right. left. reflexivity.
  - exists err. exact Hrun.
Qed.

Lemma process_stage_returns_o_argument_witness :
  outcome (process_stage w_ok (mk_Path "in.ll") BITCODE None BITCODE false None) = inr DEFAULT_OBJ /\
  In (Spawn ["llc"; "in.ll"; "--filetype=obj"; "-o"; "a.o"] true true false)
     (effects (process_stage w_ok (mk_Path "in.ll") BITCODE None BITCODE false None)) /\
  exists err, run_process w_ok ["llc"; "in.ll"; "--filetype=obj"; "-o"; "a.o"] = Exited 0 err.
Proof.
  assert (H : outcome (process_stage w_ok (mk_Path "in.ll") BITCODE None BITCODE false None)
              = inr DEFAULT_OBJ) by reflexivity.
  split; [exact H|].
  exact (process_stage_returns_o_argument w_ok (mk_Path "in.ll") BITCODE None false None
           DEFAULT_OBJ H).
Defined.

(** [process_stage] reads the environment only through [LLC]: two worlds
    that agree on [LLC] and on how processes behave give the same run. *)
Theorem process_stage_env_only_LLC :
  forall (w w' : World) (input_path : Path) (input_encoding : EncodingMode)
         (output_path : option Path) (output_encoding : EncodingMode)
         (temp_file : bool) (module_name : option string),
  environ w !! "LLC" = environ w' !! "LLC" ->
  run_process w = run_process w' ->
  process_stage w input_path input_encoding output_path output_encoding temp_file module_name
  = process_stage w' input_path input_encoding output_path output_encoding temp_file module_name.
Proof.
  intros w w' ip ie op oe tf mn Henv Hrun.
  assert (Hc : _get_compiler w = _get_compiler w').
  { unfold _get_compiler, LLC_ENV. rewrite Henv. reflexivity. }
  unfold process_stage, subprocess_run. rewrite Hc, Hrun. reflexivity.
Qed.

Lemma process_stage_env_only_LLC_witness :
  environ w_ok !! "LLC" = environ (mkWorld (<["PATH" := "/usr/bin"]> ∅) (run_process w_ok) (fun _ => false)) !! "LLC" /\
  run_process w_ok = run_process (mkWorld (<["PATH" := "/usr/bin"]> ∅) (run_process w_ok) (fun _ => false)) /\
  process_stage w_ok (mk_Path "in.ll") BITCODE None BITCODE false None
  = process_stage (mkWorld (<["PATH" := "/usr/bin"]> ∅) (run_process w_ok) (fun _ => false))
      (mk_Path "in.ll") BITCODE None BITCODE false None.
Proof.
  assert (H1 : environ w_ok !! "LLC"
               = environ (mkWorld (<["PATH" := "/usr/bin"]> ∅) (run_process w_ok) (fun _ => false)) !! "LLC")
    by reflexivity.
  assert (H2 : run_process w_ok
               = run_process (mkWorld (<["PATH" := "/usr/bin"]> ∅) (run_process w_ok) (fun _ => false)))
    by reflexivity.
  split; [exact H1|]. split; [exact H2|].
  exact (process_stage_env_only_LLC _ _ _ _ _ _ _ _ H1 H2).
Defined.

End LlvmCompilerExtra.

Module SplitlinesFacts.

Section Generic.
Context {A : Type} (is_sep is_cr is_lf : A -> bool).

(** The first line produced is everything up to the first boundary. *)
Lemma splitlines_aux_first :
  forall (l : list A) (c : A) (rest cur : list A),
  Forall (fun x => is_sep x = false) l -> is_sep c = true ->
  exists tl, splitlines_aux is_sep is_cr is_lf (l ++ c :: rest) cur = (rev cur ++ l) :: tl.
Proof.
  induction l as [|x l IH]; intros c rest cur Hl Hc.
  - simpl. rewrite Hc, app_nil_r.
    destruct rest as [|d t]; [eexists; reflexivity|].
    destruct (is_cr c && is_lf d); eexists; reflexivity.
  - inversion Hl as [|? ? Hx Hl']; subst. simpl. rewrite Hx.
    destruct (IH c rest (x :: cur) Hl' Hc) as [tl Htl]. rewrite Htl.
    exists tl. simpl. rewrite <- app_assoc. reflexivity.
Qed.

(** Without a boundary, a non-empty input is one line. *)
Lemma splitlines_aux_no_break :
  forall (l cur : list A),
  Forall (fun x => is_sep x = false) l -> rev cur ++ l <> [] ->
  splitlines_aux is_sep is_cr is_lf l cur = [rev cur ++ l].
Proof.
  induction l as [|x l IH]; intros cur Hl Hne.
  - simpl. rewrite app_nil_r in *. destruct cur; [contradiction|reflexivity].
  - inversion Hl as [|? ? Hx Hl']; subst. simpl. rewrite Hx.
    assert (Hne' : rev (x :: cur) ++ l <> []).
    { simpl. intros Hc. apply app_eq_nil in Hc as [Hc _].
      apply app_eq_nil in Hc as [_ Hc]. discriminate. }
    rewrite (IH (x :: cur) Hl' Hne').
    simpl. rewrite <- app_assoc. reflexivity.
Qed.

End Generic.

End SplitlinesFacts.

Module LlcErrorExtra.
Import LlvmCompiler LlvmCompilerFacts SplitlinesFacts Inputs.

(** When [llc] exits with a non-zero status, the [LlcError] message is
    the fixed header followed by the [repr] of the bytes before the first
    [\n] or [\r] of the error stream; of the whole stream when it has no
    line break; and by nothing when the stream is empty. *)
Theorem llc_error_message_first_line :
  forall (w : World) (input_path : Path) (input_encoding : EncodingMode)
         (output_path : option Path) (temp_file : bool) (module_name : option string)
         (rc : Z) (err : bytes),
  run_process w (llc_cmd w input_path output_path) = Exited rc err -> rc <> 0%Z ->
  exists perror,
    outcome (process_stage w input_path input_encoding output_path BITCODE temp_file module_name)
      = inl (LlcError perror) /\
    (forall l c rest, err = l ++ c :: rest ->
       Forall (fun x => is_line_break x = false) l -> is_line_break c = true ->
       exn_message (LlcError perror)
       = ("An error occurred while calling 'llc':" ++ nl ++ bytes_repr l)%string) /\
    (Forall (fun x => is_line_break x = false) err -> err <> [] ->
       exn_message (LlcError perror)
       = ("An error occurred while calling 'llc':" ++ nl ++ bytes_repr err)%string) /\
    (err = [] ->
       exn_message (LlcError perror) = ("An error occurred while calling 'llc':" ++ nl)%string).
Proof.
  intros w ip ie op tf mn rc err Hrun Hrc.
  destruct (process_stage_nonzero_exit w ip ie op tf mn rc err Hrun Hrc)
    as (perror & Hout & _ & Hmsg).
  exists perror. split; [exact Hout|]. rewrite Hmsg. repeat split.
  - intros l c rest -> Hl Hc. unfold bytes_splitlines.
    destruct (splitlines_aux_first is_line_break
                (fun c => Byte.eqb c (byte_of_char "013"))
                (fun c => Byte.eqb c (byte_of_char "010")) l c rest [] Hl Hc) as [tl Htl].
    rewrite Htl. reflexivity.
  - intros Hl Hne. unfold bytes_splitlines.
    rewrite splitlines_aux_no_break by (exact Hl || exact Hne). reflexivity.
  - intros ->. reflexivity.
Qed.

Lemma llc_error_message_first_line_witness :
  run_process w_llc_fails (llc_cmd w_llc_fails (mk_Path "in.ll") None)
    = Exited 1 (list_byte_of_string "error: bad" ++ [newline]) /\
  exists perror,
    outcome (process_stage w_llc_fails (mk_Path "in.ll") BITCODE None BITCODE false None)
      = inl (LlcError perror) /\
    exn_message (LlcError perror)
      = ("An error occurred while calling 'llc':" ++ nl ++ bytes_repr (list_byte_of_string "error: bad"))%string.
Proof.
  assert (Hrun : run_process w_llc_fails (llc_cmd w_llc_fails (mk_Path "in.ll") None)
                 = Exited 1 (list_byte_of_string "error: bad" ++ [newline])) by reflexivity.
  split; [exact Hrun|].
  destruct (llc_error_message_first_line w_llc_fails (mk_Path "in.ll") BITCODE None false None
              1 _ Hrun ltac:(discriminate)) as (perror & Hout & Hfirst & _ & _).
  exists perror. split; [exact Hout|].
  apply (Hfirst (list_byte_of_string "error: bad") newline []); [reflexivity | | reflexivity].
  repeat constructor.
Defined.

End LlcErrorExtra.

Module MainExtra.
Import Main Entry Inputs MonadFacts MainFacts.

(** The validation loop on a list ordered by stage reports the earliest
    offending stage. *)
Lemma validate_loop_earliest :
  forall (st : Stage) (l : list (option Path * Stage)) (eff : list Effect) (e : Exn),
  StronglySorted (fun a b => stage_value (snd a) <= stage_value (snd b)) l ->
  validate_loop st l = (eff, inl e) ->
  exists stage,
    e = SystemExit 2 (validate_message stage) /\
    (exists store, In (store, stage) l /\ store <> None) /\
    stage_ge st stage = true /\
    (forall store' stage', In (store', stage') l -> store' <> None ->
       stage_ge st stage' = true -> stage_value stage <= stage_value stage').
Proof.
  intros st l. induction l as [|[store stage] rest IH]; intros eff e Hs H; [discriminate|].
  inversion Hs as [|? ? Hs' Hall]; subst.
  simpl in H. destruct store as [p|] eqn:Hst; [destruct (stage_ge st stage) eqn:Hge|].
  - inversion H; subst. exists stage. split; [reflexivity|].
    split; [exists (Some p); split; [left; reflexivity|discriminate]|]. split; [exact Hge|].
    intros store' stage' [Heq|Hin] Hne Hge'.
    + inversion Heq; subst. lia.
    + rewrite List.Forall_forall in Hall. exact (Hall _ Hin).
  - destruct (IH eff e Hs' H) as (g & He & (s0 & Hin & Hne) & Hg & Hmin).
    exists g. split; [exact He|]. split; [exists s0; split; [right; exact Hin|exact Hne]|].
    split; [exact Hg|].
    intros store' stage' [Heq|Hin'] Hne' Hge'.
    + inversion Heq; subst. congruence.
    + exact (Hmin _ _ Hin' Hne' Hge').
  - destruct (IH eff e Hs' H) as (g & He & (s0 & Hin & Hne) & Hg & Hmin).
    exists g. split; [exact He|]. split; [exists s0; split; [right; exact Hin|exact Hne]|].
    split; [exact Hg|].
    intros store' stage' [Heq|Hin'] Hne' Hge'.
    + inversion Heq; subst. congruence.
    + exact (Hmin _ _ Hin' Hne' Hge').
Qed.

Lemma store_requires_sorted :
  forall n : Namespace,
  StronglySorted (fun a b => stage_value (snd a) <= stage_value (snd b)) (store_requires n).
Proof.
  intros n. unfold store_requires.
  repeat constructor; simpl; lia.
Qed.

(** When [validate_args] fails, it exits with status 2 naming the
    earliest stage among the requested artifacts at or before the input
    stage. *)
Theorem validate_args_names_earliest_stage :
  forall (args : Args) (eff : list Effect) (e : Exn),
  validate_args args = (eff, inl e) ->
  exists stage,
    e = SystemExit 2 ("Cannot produce a " ++ stage_name stage ++ " artifact from the given input.") /\
    (exists store, In (store, stage) (store_requires (ns args)) /\ store <> None) /\
    stage_ge (input_stage args) stage = true /\
    (forall store' stage', In (store', stage') (store_requires (ns args)) -> store' <> None ->
       stage_ge (input_stage args) stage' = true -> stage_value stage <= stage_value stage').
Proof.
  intros args eff e H.
  exact (validate_loop_earliest (input_stage args) (store_requires (ns args)) eff e
           (store_requires_sorted (ns args)) H).
Qed.

Lemma validate_args_names_earliest_stage_witness :
  validate_args (mkArgs ns_llvm_two_stores LLVM BITCODE)
    = ([], inl (SystemExit 2 "Cannot produce a HUGR_MLIR artifact from the given input.")) /\
  exists stage,
    SystemExit 2 "Cannot produce a HUGR_MLIR artifact from the given input."
      = SystemExit 2 ("Cannot produce a " ++ stage_name stage ++ " artifact from the given input.") /\
    (exists store, In (store, stage) (store_requires ns_llvm_two_stores) /\ store <> None) /\
    stage_ge LLVM stage = true /\
    (forall store' stage', In (store', stage') (store_requires ns_llvm_two_stores) -> store' <> None ->
       stage_ge LLVM stage' = true -> stage_value stage <= stage_value stage').
Proof.
  assert (H : validate_args (mkArgs ns_llvm_two_stores LLVM BITCODE)
    = ([], inl (SystemExit 2 "Cannot produce a HUGR_MLIR artifact from the given input.")))
    by reflexivity.
  split; [exact H|].
  exact (validate_args_names_earliest_stage _ _ _ H).
Defined.

(** A passing validation loop has no offending entry. *)
Lemma validate_loop_ok_no_offending :
  forall (st : Stage) (l : list (option Path * Stage)) (eff : list Effect),
  validate_loop st l = (eff, inr tt) ->
  forall store stage, In (store, stage) l -> store <> None -> stage_ge st stage = false.
Proof.
  intros st l eff H store stage Hin Hne.
  destruct (stage_ge st stage) eqn:Hge; [|reflexivity].
  destruct (validate_loop_rejects st l (ex_intro _ store (ex_intro _ stage (conj Hin (conj Hne Hge)))))
    as (g & _ & _ & Hrun).
  rewrite Hrun in H. discriminate.
Qed.



(** With GUPPY input every [--store-*] option is accepted; with LLVM
    input validation passes exactly when none of [--store-hugr],
    [--store-hugr-mlir], [--store-llvm-mlir] and [--store-llvm] is given. *)
Theorem validate_args_guppy_llvm :
  forall (n : Namespace) (enc : EncodingMode),
  validate_args (mkArgs n GUPPY enc) = ([], inr tt) /\
  (outcome (validate_args (mkArgs n LLVM enc)) = inr tt <->
   store_hugr n = None /\ store_hugr_mlir n = None /\ store_llvm_mlir n = None /\
   store_llvm n = None).
Proof.
  intros n enc. split.
  - apply validate_loop_accepts. intros store stage Hin _. simpl in Hin.
    destruct Hin as [H|[H|[H|[H|[H|[H|[]]]]]]]; inversion H; reflexivity.
  - unfold validate_args, store_requires. simpl.
    destruct (store_hugr n), (store_hugr_mlir n), (store_llvm_mlir n), (store_llvm n),
             (store_obj n), (store_bin n);
      simpl; split; intros H;
      try (discriminate H); try (destruct H as (H1 & H2 & H3 & H4); discriminate);
      try (repeat split; reflexivity); reflexivity.
Qed.

Lemma effects_bind_inr {A B} (m : PyM A) (k : A -> PyM B) (a : A) :
  outcome m = inr a -> effects (bind m k) = effects m ++ effects (k a).
Proof. intros H. rewrite (bind_inr m k a H). reflexivity. Qed.

(** What a successful [parse_args] returns. *)
Lemma parse_args_inr :
  forall (from_file : Path -> Stage -> option EncodingMode) (n : Namespace) (args : Args),
  outcome (parse_args from_file n) = inr args ->
  ns args = n /\ input_stage args = get_input_state n /\
  outcome (get_input_encoding from_file n (get_input_state n)) = inr (input_encoding args) /\
  (forall store stage, In (store, stage) (store_requires n) -> store <> None ->
     stage_ge (get_input_state n) stage = false).
Proof.
  intros from_file n args H. unfold parse_args in H.
  destruct (get_input_encoding_total_logs from_file n (get_input_state n)) as ((enc & Henc) & _).
  rewrite (bind_inr _ _ enc Henc) in H. cbn [outcome snd] in H.
  remember (validate_args (mkArgs n (get_input_state n) enc)) as v eqn:Hv.
  destruct v as [eff [e|[]]]; [discriminate H|].
  cbn in H. inversion H; subst args. cbn. split; [reflexivity|]. split; [reflexivity|].
  split; [exact Henc|].
  exact (validate_loop_ok_no_offending (get_input_state n) (store_requires n) eff (eq_sym Hv)).
Qed.



(** Once arguments are accepted and the input is read, [main] does, in
    order: the [parse_args] log records, the logging set-up when
    [--verbose] is given, one read of the input (the file when one is
    given, else standard input, at the resolved stage and encoding), and
    one pipeline run. *)
Theorem main_effect_sequence :
  forall (from_file : Path -> Stage -> option EncodingMode)
         (run_guppy_from_stage : StageData -> RunOptions -> bool)
         (w : World) (n : Namespace) (args : Args) (sd : StageData),
  outcome (parse_args from_file n) = inr args ->
  outcome (load_stage_data w args) = inr sd ->
  effects (main from_file run_guppy_from_stage w n)
    = effects (parse_args from_file n) ++
      (if verbose n then [ConfigureLogging] else []) ++
      match input n with
      | Some p => [ReadPath (input_stage args) p (input_encoding args)]
      | None => [ReadStdin (input_stage args) (input_encoding args)]
      end ++ [RunPipeline] /\
  sd = mkStageData (input_stage args) (input_encoding args) (input n).
Proof.
  intros from_file run w n args sd Hp Hl.
  destruct (parse_args_inr from_file n args Hp) as (Hns & _ & _ & _).
  assert (Hload : effects (load_stage_data w args)
                  = match input n with
                    | Some p => [ReadPath (input_stage args) p (input_encoding args)]
                    | None => [ReadStdin (input_stage args) (input_encoding args)]
                    end /\
                  sd = mkStageData (input_stage args) (input_encoding args) (input n)).
  { revert Hl. unfold load_stage_data. rewrite Hns.
    destruct (input n) as [p|]; simpl.
    - unfold StageData_from_path. destruct (file_exists w p); [|discriminate].
      simpl. intros H. inversion H. split; reflexivity.
    - intros H. inversion H. split; reflexivity. }
  destruct Hload as [Hle Hsd]. split; [|exact Hsd].
  unfold main. rewrite (effects_bind_inr _ _ args Hp).
  rewrite (effects_bind_inr _ _ tt) by (destruct (verbose (ns args)); reflexivity).
  rewrite (effects_bind_inr _ _ sd Hl).
  rewrite (effects_bind_inr _ _ tt) by reflexivity.
  rewrite Hle, Hns.
  destruct (run sd (run_options args)), (verbose n); reflexivity.
Qed.

Lemma main_effect_sequence_witness :
  outcome (parse_args no_ext (ns_plain None)) = inr (mkArgs (ns_plain None) GUPPY TEXTUAL) /\
  outcome (load_stage_data w_ok (mkArgs (ns_plain None) GUPPY TEXTUAL))
    = inr (mkStageData GUPPY TEXTUAL None) /\
  effects (main no_ext (fun _ _ => true) w_ok (ns_plain None))
    = [] ++ [] ++ [ReadStdin GUPPY TEXTUAL] ++ [RunPipeline].
Proof.
  assert (Hp : outcome (parse_args no_ext (ns_plain None))
               = inr (mkArgs (ns_plain None) GUPPY TEXTUAL)) by reflexivity.
  assert (Hl : outcome (load_stage_data w_ok (mkArgs (ns_plain None) GUPPY TEXTUAL))
               = inr (mkStageData GUPPY TEXTUAL None)) by reflexivity.
  split; [exact Hp|]. split; [exact Hl|].
  exact (proj1 (main_effect_sequence no_ext (fun _ _ => true) w_ok _ _ _ Hp Hl)).
Defined.

(** [get_input_encoding] writes a log record exactly when no encoding
    flag is given, an input file is, and its extension is not recognised;
    a recognised extension is used as it is, without a log record. *)
Theorem get_input_encoding_log_iff :
  forall (from_file : Path -> Stage -> option EncodingMode) (n : Namespace) (st : Stage),
  (effects (get_input_encoding from_file n st) <> [] <->
   textual n = false /\ bitcode n = false /\
   exists p, input n = Some p /\ from_file p st = None) /\
  (forall p e, textual n = false -> bitcode n = false -> input n = Some p ->
     from_file p st = Some e -> get_input_encoding from_file n st = ([], inr e)).
Proof.
  intros from_file n st. unfold get_input_encoding. split.
  - destruct (textual n), (bitcode n); simpl;
      try (split; [intros H; contradiction H; reflexivity | intros (H1 & H2 & _); discriminate]).
    destruct (input n) as [p|] eqn:Hi; [destruct (from_file p st) eqn:Hf|]; simpl.
    + split; [intros H; contradiction H; reflexivity|].
      intros (_ & _ & q & Hq & Hf'). inversion Hq; subst. congruence.
    + split; [intros _; split; [reflexivity|]; split; [reflexivity|]; exists p; split; [reflexivity|exact Hf]|].
      intros _. discriminate.
    + split; [intros H; contradiction H; reflexivity|].
      intros (_ & _ & q & Hq & _). discriminate.
  - intros p e -> -> -> ->. reflexivity.
Qed.

(** With no input file, no encoding flag and acceptable [--store-*]
    options, [main] reads standard input as TEXTUAL at the stage the
    flags select, runs the pipeline once, and exits with 0 or 1 as the
    pipeline reports. *)
Theorem main_stdin_textual :
  forall (from_file : Path -> Stage -> option EncodingMode)
         (run_guppy_from_stage : StageData -> RunOptions -> bool)
         (w : World) (n : Namespace),
  input n = None -> textual n = false -> bitcode n = false ->
  (forall store stage, In (store, stage) (store_requires n) -> store <> None ->
     stage_ge (get_input_state n) stage = false) ->
  effects (main from_file run_guppy_from_stage w n)
    = (if verbose n then [ConfigureLogging] else []) ++
      [ReadStdin (get_input_state n) TEXTUAL; RunPipeline] /\
  exit_code (outcome (main from_file run_guppy_from_stage w n))
    = if run_guppy_from_stage (mkStageData (get_input_state n) TEXTUAL None)
           (run_options (mkArgs n (get_input_state n) TEXTUAL))
      then 0%Z else 1%Z.
Proof.
  intros from_file run w n Hi Ht Hb Hok.
  assert (He : get_input_encoding from_file n (get_input_state n) = ([], inr TEXTUAL)).
  { unfold get_input_encoding. rewrite Ht, Hb, Hi. reflexivity. }
  assert (Hv : validate_args (mkArgs n (get_input_state n) TEXTUAL) = ([], inr tt)).
  { apply validate_loop_accepts. exact Hok. }
  assert (Hp : parse_args from_file n = ([], inr (mkArgs n (get_input_state n) TEXTUAL))).
  { unfold parse_args. rewrite He. simpl. rewrite Hv. reflexivity. }
  assert (Hpo : outcome (parse_args from_file n) = inr (mkArgs n (get_input_state n) TEXTUAL))
    by (rewrite Hp; reflexivity).
  assert (Hlo : outcome (load_stage_data w (mkArgs n (get_input_state n) TEXTUAL))
                = inr (mkStageData (get_input_state n) TEXTUAL None)).
  { unfold load_stage_data. simpl. rewrite Hi. reflexivity. }
  assert (Hle : effects (load_stage_data w (mkArgs n (get_input_state n) TEXTUAL))
                = [ReadStdin (get_input_state n) TEXTUAL]).
  { unfold load_stage_data. simpl. rewrite Hi. reflexivity. }
  assert (Hvb : outcome (if verbose (ns (mkArgs n (get_input_state n) TEXTUAL))
                         then tell ConfigureLogging else ret tt) = inr tt)
    by (cbn [ns]; destruct (verbose n); reflexivity).
  unfold main. split.
  - rewrite (effects_bind_inr _ _ _ Hpo), (effects_bind_inr _ _ _ Hvb),
      (effects_bind_inr _ _ _ Hlo), (effects_bind_inr _ _ tt) by reflexivity.
    rewrite Hp, Hle. simpl.
    destruct (verbose n), (run (mkStageData (get_input_state n) TEXTUAL None)
                               (run_options (mkArgs n (get_input_state n) TEXTUAL)));
      reflexivity.
  - rewrite (outcome_bind_inr _ _ _ Hpo), (outcome_bind_inr _ _ _ Hvb),
      (outcome_bind_inr _ _ _ Hlo), (outcome_bind_inr _ _ tt) by reflexivity.
    destruct (run (mkStageData (get_input_state n) TEXTUAL None)
                  (run_options (mkArgs n (get_input_state n) TEXTUAL))); reflexivity.
Qed.

Lemma main_stdin_textual_witness :
  effects (main no_ext (fun _ _ => false) w_ok (ns_plain None)) = [ReadStdin GUPPY TEXTUAL; RunPipeline] /\
  exit_code (outcome (main no_ext (fun _ _ => false) w_ok (ns_plain None))) = 1%Z.
Proof.
  assert (Hok : forall store stage, In (store, stage) (store_requires (ns_plain None)) ->
                 store <> None -> stage_ge (get_input_state (ns_plain None)) stage = false).
  { intros store stage Hin _. simpl in Hin.
    destruct Hin as [H|[H|[H|[H|[H|[H|[]]]]]]]; inversion H; reflexivity. }
  exact (main_stdin_textual no_ext (fun _ _ => false) w_ok (ns_plain None)
           eq_refl eq_refl eq_refl Hok).
Defined.

End MainExtra.
